(** * LearnzVerse: the [/chat] request handler of [app.py]

    A shallow embedding of the Flask handler [chat] and of the two module
    globals it reads ([TUTOR_PROMPTS], [MODELS]), followed by the properties
    of the handler: validation, message assembly, the model fallback loop and
    the shaping of error responses.

    Python values that reach the handler come from a JSON body, so they are
    modelled by a JSON value type.  Exceptions are values of type [exn];
    the handler runs in a state-and-exception monad over the process state
    (module globals, standard output) and the remote completion service. *)

From Stdlib Require Import ZArith QArith List Ascii String.
From stdpp Require Import base option gmap strings list pretty.
Import ListNotations.

Set Warnings "-register-all".

Local Open Scope string_scope.
Local Open Scope Z_scope.
Local Open Scope list_scope.

(** ** Python values *)

(** What [request.json] can hold.  JSON numbers are kept as integers: no
    branch of the handler looks at a number beyond its being zero. *)
Inductive json : Type :=
| JNull
| JBool (b : bool)
| JNum (n : Z)
| JStr (s : string)
| JArr (items : list json)
| JObj (items : list (string * json)).

(** The items of a dict are kept as an association list whose keys are
    distinct, as they are in a parsed JSON object. *)
Fixpoint assoc (k : string) (d : list (string * json)) : option json :=
  match d with
  | [] => None
  | (k', v) :: rest => if String.eqb k k' then Some v else assoc k rest
  end.

Definition type_name (v : json) : string :=
  match v with
  | JNull => "NoneType"
  | JBool _ => "bool"
  | JNum _ => "int"
  | JStr _ => "str"
  | JArr _ => "list"
  | JObj _ => "dict"
  end.

(** Truth value of an object, as tested by [not x] and [if x]. *)
Definition truthy (v : json) : bool :=
  match v with
  | JNull => false
  | JBool b => b
  | JNum n => negb (n =? 0)
  | JStr s => negb (String.eqb s EmptyString)
  | JArr l => match l with [] => false | _ => true end
  | JObj d => match d with [] => false | _ => true end
  end.

(** ** Exceptions *)

Inductive exn : Type :=
| KeyError (key : json)
| TypeError (msg : string)
| AttributeError (msg : string)
| IndexError (msg : string)
| Exception (msg : string)
| ClientError (cls : string) (msg : string).
    (* any [Exception] subclass raised inside the completion client *)

(** [repr] of a hashable key.  For a string this is the string between
    single quotes, which is right when it holds no quote and no escape, as
    for the two keys the handler subscripts with. *)
Definition repr (key : json) : string :=
  match key with
  | JNull => "None"
  | JBool true => "True"
  | JBool false => "False"
  | JNum n => pretty n
  | JStr s => "'" +:+ s +:+ "'"
  | JArr _ | JObj _ => "<" +:+ type_name key +:+ ">"
  end.

(** [str(e)].  A [KeyError] prints the repr of its key. *)
Definition str (e : exn) : string :=
  match e with
  | KeyError key => repr key
  | TypeError msg | AttributeError msg | IndexError msg
  | Exception msg | ClientError _ msg => msg
  end.

Abbreviation result A := (exn + A)%type.

(** [v[key]] for a string key. *)
Definition subscript (v : json) (key : string) : result json :=
  match v with
  | JObj d =>
      match assoc key d with
      | Some x => inr x
      | None => inl (KeyError (JStr key))
      end
  | JStr _ => inl (TypeError "string indices must be integers, not 'str'")
  | JArr _ => inl (TypeError "list indices must be integers or slices, not str")
  | _ => inl (TypeError ("'" +:+ type_name v +:+ "' object is not subscriptable"))
  end.

Fixpoint chars (s : string) : list json :=
  match s with
  | EmptyString => []
  | String c rest => JStr (String c EmptyString) :: chars rest
  end.

(** The elements a [for] loop over [v] visits. *)
Definition iterate (v : json) : result (list json) :=
  match v with
  | JArr l => inr l
  | JObj d => inr (map (fun kv => JStr (fst kv)) d)
  | JStr s => inr (chars s)
  | _ => inl (TypeError ("'" +:+ type_name v +:+ "' object is not iterable"))
  end.

(** [key in d] for a dict [d] with string keys: the key is hashed first. *)
Definition contains (d : gmap string string) (key : json) : result bool :=
  match key with
  | JStr s => inr (bool_decide (is_Some (d !! s)))
  | JArr _ | JObj _ => inl (TypeError ("unhashable type: '" +:+ type_name key +:+ "'"))
  | _ => inr false
  end.

(** [d[key]] for a dict [d] with string keys. *)
Definition getitem (d : gmap string string) (key : json) : result string :=
  match key with
  | JStr s =>
      match d !! s with
      | Some x => inr x
      | None => inl (KeyError key)
      end
  | JArr _ | JObj _ => inl (TypeError ("unhashable type: '" +:+ type_name key +:+ "'"))
  | _ => inl (KeyError key)
  end.

(** ** The completion client *)

(** Keyword arguments of [client.chat.completions.create]. *)
Record completion_request : Type := {
  model : string;
  messages : list json;
  temperature : Q;
  max_tokens : Z
}.

(** The part of a [ChatCompletion] the handler reads:
    [response.choices[i].message.content]. *)
Record ChatCompletionMessage : Type := { content : option string }.
Record Choice : Type := { message : ChatCompletionMessage }.
Record ChatCompletion : Type := { choices : list Choice }.

(** [response.choices[0].message.content]; a [None] content is JSON null. *)
Definition first_content (response : ChatCompletion) : result json :=
  match choices response with
  | [] => inl (IndexError "list index out of range")
  | c :: _ =>
      inr (match content (message c) with
           | Some s => JStr s
           | None => JNull
           end)
  end.

(** ** Module globals *)

Definition TUTOR_PROMPTS_init : gmap string string :=
  <["physics" :=
      "You are Mr. Newton, an expert Physics tutor. Provide detailed, step-by-step explanations "
      +:+ "to help students understand physics concepts. Focus on classical mechanics, thermodynamics, "
      +:+ "and problem-solving strategies. Break down complex problems into manageable parts using "
      +:+ "clear language and real-world examples."]>
  (<["chemistry" :=
      "You are Madam Curie, a Chemistry professor. Specialize in organic chemistry and chemical "
      +:+ "reactions. Provide clear explanations with laboratory applications. Help students understand "
      +:+ "balancing equations and reaction mechanisms with practical examples and step-by-step guidance."]>
  (<["biology" :=
      "You are Dr. Darwin, a Biology expert. Focus on evolution, genetics, and ecology. Explain "
      +:+ "complex biological systems with clear analogies. Specialize in cellular biology and human "
      +:+ "anatomy, providing detailed explanations with visual descriptions when helpful."]>
  (<["math" :=
      "You are Prof. Euler, a Mathematics tutor. Specialize in algebra, calculus, and geometry. "
      +:+ "Break down problems into understandable steps with clear explanations. Help students develop "
      +:+ "problem-solving skills in trigonometry, statistics, and advanced mathematical concepts."]>
  ∅))).

Definition MODELS_init : list string :=
  [ "anthropic/claude-3-haiku";
    "anthropic/claude-3-sonnet";
    "openai/gpt-3.5-turbo";
    "google/gemini-pro" ].

(** ** Process state and the handler's monad *)

Section Handler.

(** The remote completion service: its state is opaque, and a call to
    [create] either raises or returns a completion. *)
Context {W : Type}.
Variable create : completion_request -> W -> result ChatCompletion * W.

Record process : Type := {
  TUTOR_PROMPTS : gmap string string;
  MODELS : list string;
  stdout : list string;                 (* lines printed so far *)
  issued : list completion_request;     (* calls made to the service so far *)
  remote : W
}.

Definition M (A : Type) : Type := process -> result A * process.

Definition ret {A} (a : A) : M A := fun p => (inr a, p).

Definition raise {A} (e : exn) : M A := fun p => (inl e, p).

Definition bind {A B} (m : M A) (k : A -> M B) : M B :=
  fun p =>
    match m p with
    | (inr a, p') => k a p'
    | (inl e, p') => (inl e, p')
    end.

(** [try: m  except Exception as e: handler e] *)
Definition try_except {A} (m : M A) (handler : exn -> M A) : M A :=
  fun p =>
    match m p with
    | (inr a, p') => (inr a, p')
    | (inl e, p') => handler e p'
    end.

Definition lift {A} (r : result A) : M A :=
  match r with
  | inr a => ret a
  | inl e => raise e
  end.

Definition gets {A} (f : process -> A) : M A := fun p => (inr (f p), p).

Definition print (line : string) : M unit :=
  fun p =>
    (inr tt,
     {| TUTOR_PROMPTS := TUTOR_PROMPTS p; MODELS := MODELS p;
        stdout := stdout p ++ [line]; issued := issued p; remote := remote p |}).

(** [client.chat.completions.create(...)] *)
Definition completions_create (rq : completion_request) : M ChatCompletion :=
  fun p =>
    let (r, w) := create rq (remote p) in
    (r,
     {| TUTOR_PROMPTS := TUTOR_PROMPTS p; MODELS := MODELS p;
        stdout := stdout p; issued := issued p ++ [rq]; remote := w |}).

Notation "x <- m ;; k" := (bind m (fun x => k))
  (at level 100, m at next level, right associativity).
Notation "m ;;; k" := (bind m (fun _ => k))
  (at level 100, k at level 200, right associativity).

(** ** The handler *)

(** A Flask view result: the JSON body and the HTTP status code. *)
Definition response : Type := json * Z.

Definition jsonify (fields : list (string * json)) : json := JObj fields.

(** [d.get(key, default)] on the items of a dict. *)
Definition dict_get (d : list (string * json)) (key : string) (default : json) : json :=
  match assoc key d with
  | Some v => v
  | None => default
  end.

(** [data.get(key, default)]: only a dict has the method. *)
Definition get (data : json) (key : string) (default : json) : M json :=
  match data with
  | JObj d => ret (dict_get d key default)
  | _ => raise (AttributeError ("'" +:+ type_name data +:+ "' object has no attribute 'get'"))
  end.

Definition apology : string :=
  "Sorry, I'm having trouble connecting to the tutor service. Please try again later.".

(** The body of [for h in history: messages.append(...)], from the
    elements still to visit. *)
Fixpoint append_history (hs : list json) (messages : list json) : result (list json) :=
  match hs with
  | [] => inr messages
  | h :: rest =>
      match subscript h "role" with
      | inl e => inl e
      | inr role =>
          match subscript h "content" with
          | inl e => inl e
          | inr content =>
              append_history rest
                (messages ++ [JObj [("role", role); ("content", content)]])
          end
      end
  end.

(** "Prepare chat messages in OpenAI format": the system message, the
    history entries, then the user's message. *)
Definition prepare_messages (prompts : gmap string string)
    (tutor message history : json) : result (list json) :=
  match getitem prompts tutor with
  | inl e => inl e
  | inr prompt =>
      let messages := [JObj [("role", JStr "system"); ("content", JStr prompt)]] in
      match iterate history with
      | inl e => inl e
      | inr hs =>
          match append_history hs messages with
          | inl e => inl e
          | inr messages =>
              inr (messages ++ [JObj [("role", JStr "user"); ("content", message)]])
          end
      end
  end.

(** The body of [for model in MODELS], from the models still to try. *)
Fixpoint try_models (messages : list json) (models : list string)
    (last_error : option exn) : M response :=
  match models with
  | [] =>
      raise (match last_error with
             | Some e => e
             | None => Exception "All models failed"
             end)
  | model :: rest =>
      try_except
        (response <- completions_create
                       {| model := model; messages := messages;
                          temperature := 7 # 10; max_tokens := 1000 |} ;;
         reply <- lift (first_content response) ;;
         ret (jsonify [("response", reply); ("status", JStr "success");
                       ("model", JStr model)], 200))
        (fun e =>
           print ("Error with model " +:+ model +:+ ": " +:+ str e) ;;;
           try_models messages rest (Some e))
  end.

Definition chat (data : json) : M response :=
  tutor <- get data "tutor" JNull ;;
  message <- get data "message" JNull ;;
  history <- get data "history" (JArr []) ;;
  prompts <- gets TUTOR_PROMPTS ;;
  invalid <- (if negb (truthy tutor) then ret true
              else known <- lift (contains prompts tutor) ;; ret (negb known)) ;;
  if invalid : bool then
    ret (jsonify [("response", JStr "Invalid tutor selected");
                  ("status", JStr "error")], 400)
  else if negb (truthy message) then
    ret (jsonify [("response", JStr "Message cannot be empty");
                  ("status", JStr "error")], 400)
  else
    try_except
      (prompts <- gets TUTOR_PROMPTS ;;
       messages <- lift (prepare_messages prompts tutor message history) ;;
       models <- gets MODELS ;;
       try_models messages models None)
      (fun e =>
         print ("Final error: " +:+ str e) ;;;
         ret (jsonify [("response", JStr apology); ("status", JStr "error");
                       ("error", JStr (str e))], 500)).

(** ** Vocabulary of the statements *)

(** The three fixed error responses. *)
Definition InvalidTutor : response :=
  (JObj [("response", JStr "Invalid tutor selected"); ("status", JStr "error")], 400).

Definition EmptyMessage : response :=
  (JObj [("response", JStr "Message cannot be empty"); ("status", JStr "error")], 400).

Definition ServiceError (e : exn) : response :=
  (JObj [("response", JStr apology); ("status", JStr "error");
         ("error", JStr (str e))], 500).

Definition Success (reply : json) (model : string) : response :=
  (JObj [("response", reply); ("status", JStr "success"); ("model", JStr model)], 200).

(** The call the loop makes for one model. *)
Definition request_for (messages : list json) (model : string) : completion_request :=
  {| model := model; messages := messages; temperature := 7 # 10; max_tokens := 1000 |}.

(** One trial against the service: the call, then the extraction of the
    reply.  Either step can raise. *)
Definition attempt (messages : list json) (model : string) (w : W) : result json * W :=
  let (r, w') := create (request_for messages model) w in
  (match r with
   | inl e => inl e
   | inr response => first_content response
   end, w').

(** Trying [models] one after the other from service state [w], all of
    them failing: the exceptions in order and the final service state. *)
Fixpoint failures (messages : list json) (models : list string) (w : W)
    : option (list exn * W) :=
  match models with
  | [] => Some ([], w)
  | model :: rest =>
      match attempt messages model w with
      | (inr _, _) => None
      | (inl e, w') =>
          match failures messages rest w' with
          | Some (es, w'') => Some (e :: es, w'')
          | None => None
          end
      end
  end.

(** The exception [last_error] holds after the failures [es]. *)
Definition remembered (last_error : option exn) (es : list exn) : option exn :=
  match last es with
  | Some e => Some e
  | None => last_error
  end.

(** The lines the loop prints for failed trials. *)
Fixpoint error_lines (models : list string) (es : list exn) : list string :=
  match models, es with
  | model :: models', e :: es' =>
      ("Error with model " +:+ model +:+ ": " +:+ str e) :: error_lines models' es'
  | _, _ => []
  end.

(** A tutor value the validation lets through. *)
Definition known_tutor (prompts : gmap string string) (tutor : json) : bool :=
  truthy tutor &&
  match tutor with
  | JStr t => bool_decide (is_Some (prompts !! t))
  | _ => false
  end.

Definition hashable (v : json) : bool :=
  match v with
  | JArr _ | JObj _ => false
  | _ => true
  end.

(** A history entry with both keys, and the message it is mapped to. *)
Definition well_formed (h : json) : bool :=
  match subscript h "role", subscript h "content" with
  | inr _, inr _ => true
  | _, _ => false
  end.

Definition field (h : json) (key : string) : json :=
  match subscript h key with
  | inr v => v
  | inl _ => JNull
  end.

Definition verbatim (h : json) : json :=
  JObj [("role", field h "role"); ("content", field h "content")].

Definition emit (lines : list string) (rqs : list completion_request) (w : W)
    (p : process) : process :=
  {| TUTOR_PROMPTS := TUTOR_PROMPTS p; MODELS := MODELS p;
     stdout := stdout p ++ lines; issued := issued p ++ rqs; remote := w |}.

(** The three values the handler reads from a dict body. *)
Definition tutor_of (d : list (string * json)) : json := dict_get d "tutor" JNull.
Definition message_of (d : list (string * json)) : json := dict_get d "message" JNull.
Definition history_of (d : list (string * json)) : json := dict_get d "history" (JArr []).

(** A request that passes both validation checks. *)
Definition valid (p : process) (d : list (string * json)) : bool :=
  known_tutor (TUTOR_PROMPTS p) (tutor_of d) && truthy (message_of d).

(** The message sequence built for a request. *)
Definition assembled (p : process) (d : list (string * json)) : result (list json) :=
  prepare_messages (TUTOR_PROMPTS p) (tutor_of d) (message_of d) (history_of d).




(** The outer [try]: whatever is raised past validation is printed and
    turned into the service error. *)
Definition shaped (r : result response * process) : result response * process :=
  match r with
  | (inr a, p') => (inr a, p')
  | (inl e, p') =>
      (inr (ServiceError e), emit ["Final error: " +:+ str e] [] (remote p') p')
  end.

(** What the loop raises when no model is left. *)
Definition exhausted (last_error : option exn) : exn :=
  match last_error with
  | Some e => e
  | None => Exception "All models failed"
  end.

(** The exception that leaves the handler for a body, if any: [get] on a
    body that is no dict, or the membership test on a tutor that cannot be
    hashed. *)
Definition escapes (data : json) : option exn :=
  match data with
  | JObj d =>
      if truthy (tutor_of d) && negb (hashable (tutor_of d))
      then Some (TypeError ("unhashable type: '" +:+ type_name (tutor_of d) +:+ "'"))
      else None
  | _ => Some (AttributeError ("'" +:+ type_name data +:+ "' object has no attribute 'get'"))
  end.

(** Values a [for] loop can run over. *)
Definition iterable (v : json) : bool :=
  match v with
  | JArr _ | JObj _ | JStr _ => true
  | _ => false
  end.

(** The first of the two keys a dict entry lacks, in the order the handler
    reads them. *)
Definition missing_key (items : list (string * json)) : option string :=
  match assoc "role" items with
  | None => Some "role"
  | Some _ =>
      match assoc "content" items with
      | None => Some "content"
      | Some _ => None
      end
  end.

End Handler.

(** ** A scripted service, for running the handler on concrete requests *)

(** The service answers the i-th call with the i-th entry of the script,
    and with a connection error once the script is used up. *)
Definition scripted (rq : completion_request) (script : list (result ChatCompletion))
    : result ChatCompletion * list (result ChatCompletion) :=
  match script with
  | [] => (inl (ClientError "APIConnectionError" "Connection error."), [])
  | r :: script' => (r, script')
  end.

Definition said (reply : string) : result ChatCompletion :=
  inr {| choices := [ {| message := {| content := Some reply |} |} ] |}.

(** The process as it is after the module has been loaded. *)
Definition boot {W : Type} (w : W) : @process W :=
  {| TUTOR_PROMPTS := TUTOR_PROMPTS_init; MODELS := MODELS_init;
     stdout := []; issued := []; remote := w |}.

(** Requests and service scripts used below. *)

Definition newton_prompt : string :=
  "You are Mr. Newton, an expert Physics tutor. Provide detailed, step-by-step explanations to help students understand physics concepts. Focus on classical mechanics, thermodynamics, and problem-solving strategies. Break down complex problems into manageable parts using clear language and real-world examples.".

Definition inertia : list (string * json) :=
  [("tutor", JStr "physics"); ("message", JStr "What is inertia?")].

Definition inertia_messages : list json :=
  [JObj [("role", JStr "system"); ("content", JStr newton_prompt)];
   JObj [("role", JStr "user"); ("content", JStr "What is inertia?")]].

Definition rate_limited : result ChatCompletion :=
  inl (ClientError "RateLimitError" "Error code: 429").

Definition timed_out : result ChatCompletion :=
  inl (ClientError "TimeoutError" EmptyString).

Definition with_history : list (string * json) :=
  [("tutor", JStr "physics");
   ("message", JStr "And momentum?");
   ("history",
    JArr [JObj [("role", JStr "user"); ("content", JStr "What is inertia?")];
          JObj [("content", JStr "Resistance to a change of motion.");
                ("role", JStr "assistant"); ("id", JNum 7)]])].

Definition art : list (string * json) :=
  [("tutor", JStr "art"); ("message", JStr "What is perspective?")].

Definition no_message : list (string * json) := [("tutor", JStr "math")].

Definition all_time_out : list (result ChatCompletion) :=
  [rate_limited; rate_limited; rate_limited; timed_out].


Definition broken_history : list (string * json) :=
  [("tutor", JStr "chemistry");
   ("message", JStr "Balance H2 + O2.");
   ("history",
    JArr [JObj [("role", JStr "user"); ("content", JStr "Hello")];
          JObj [("role", JStr "assistant")]])].

(** A process whose model list is empty. *)
Definition unconfigured {W : Type} (w : W) : @process W :=
  {| TUTOR_PROMPTS := TUTOR_PROMPTS_init; MODELS := [];
     stdout := []; issued := []; remote := w |}.

Definition no_choices : result ChatCompletion := inr {| choices := [] |}.

Definition no_content : result ChatCompletion :=
  inr {| choices := [ {| message := {| content := None |} |};
                      {| message := {| content := Some "second choice" |} |} ] |}.

Definition null_history : list (string * json) :=
  [("tutor", JStr "physics"); ("message", JStr "What is inertia?");
   ("history", JNull)].

Definition empty_dict_history : list (string * json) :=
  [("session", JNum 1); ("tutor", JStr "physics");
   ("history", JObj []); ("message", JStr "What is inertia?")].

Definition missing_role : list (string * json) :=
  [("tutor", JStr "math");
   ("message", JStr "What is a group?");
   ("history",
    JArr [JObj [("role", JStr "user"); ("content", JStr "Hello")];
          JObj [("content", JStr "Hi")];
          JObj [("role", JStr "user")];
          JNum 3])].

Definition capitalised : list (string * json) :=
  [("tutor", JStr "Physics"); ("message", JStr "What is inertia?")].

(** A body whose tutor is a list. *)
Definition list_tutor : list (string * json) :=
  [("tutor", JArr [JStr "physics"]); ("message", JStr "What is inertia?")].

(** ** The fallback loop *)

Section Properties.

Context {W : Type}.
Variable create : completion_request -> W -> result ChatCompletion * W.

Implicit Types (p : @process W) (w : W) (d : list (string * json)).
Implicit Types (msgs : list json) (models : list string) (es : list exn).

Lemma emit_nil p : emit [] [] (remote p) p = p.
Proof. destruct p; unfold emit; simpl. by rewrite !app_nil_r. Qed.

Lemma emit_emit lines1 rqs1 w1 lines2 rqs2 w2 p :
  emit lines2 rqs2 w2 (emit lines1 rqs1 w1 p)
  = emit (lines1 ++ lines2) (rqs1 ++ rqs2) w2 p.
Proof. unfold emit; simpl. by rewrite !app_assoc. Qed.

(** One iteration whose trial succeeds returns at once. *)
Lemma try_models_success msgs model rest last_error p reply w' :
  attempt create msgs model (remote p) = (inr reply, w') ->
  try_models create msgs (model :: rest) last_error p
  = (inr (Success reply model), emit [] [request_for msgs model] w' p).
Proof.
  unfold attempt. intros Hat. simpl.
  unfold try_except, bind, completions_create, request_for in *.
  destruct (create _ (remote p)) as [[e|resp] w1]; [discriminate|].
  injection Hat as Hfc ->. rewrite Hfc. simpl.
  unfold ret, Success, jsonify, emit. by rewrite app_nil_r.
Qed.

(** One iteration whose trial fails prints a line and goes on with the
    next model, remembering the exception. *)
Lemma try_models_failure msgs model rest last_error p e w' :
  attempt create msgs model (remote p) = (inl e, w') ->
  try_models create msgs (model :: rest) last_error p
  = try_models create msgs rest (Some e)
      (emit ["Error with model " +:+ model +:+ ": " +:+ str e]
            [request_for msgs model] w' p).
Proof.
  unfold attempt. intros Hat. simpl.
  unfold try_except, bind, completions_create, request_for in *.
  destruct (create _ (remote p)) as [[e1|resp] w1].
  - injection Hat as -> ->. reflexivity.
  - injection Hat as Hfc ->. rewrite Hfc. reflexivity.
Qed.

Lemma remembered_cons last_error e es :
  remembered (Some e) es = remembered last_error (e :: es).
Proof.
  unfold remembered. destruct es as [|e' es']; [reflexivity|].
  rewrite last_cons_cons.
  destruct (last (e' :: es')) eqn:Hl; [reflexivity|].
  apply last_None in Hl. discriminate.
Qed.

(** A run of failing trials is skipped as a whole. *)
Lemma try_models_failures msgs pre : forall rest last_error p es w',
  failures create msgs pre (remote p) = Some (es, w') ->
  try_models create msgs (pre ++ rest) last_error p
  = try_models create msgs rest (remembered last_error es)
      (emit (error_lines pre es) (map (request_for msgs) pre) w' p).
Proof.
  induction pre as [|model pre IH]; intros rest last_error p es w' Hf.
  - injection Hf as <- <-. simpl. by rewrite emit_nil.
  - simpl in Hf.
    destruct (attempt create msgs model (remote p)) as [[e|reply] w1] eqn:Hat;
      [|discriminate].
    destruct (failures create msgs pre w1) as [[es1 w2]|] eqn:Hrest; [|discriminate].
    injection Hf as <- <-.
    rewrite <- app_comm_cons, (try_models_failure _ _ _ _ _ _ _ Hat).
    rewrite (IH rest (Some e) _ es1 w2) by exact Hrest.
    rewrite emit_emit, (remembered_cons last_error). reflexivity.
Qed.

(** ** The handler, path by path *)

Lemma known_tutor_contains (prompts : gmap string string) tutor :
  known_tutor prompts tutor = true <->
  truthy tutor = true /\ contains prompts tutor = inr true.
Proof.
  unfold known_tutor, contains. rewrite andb_true_iff.
  destruct tutor; simpl; split; intros [H1 H2]; split;
    congruence || (try discriminate).
Qed.

Lemma known_tutor_getitem (prompts : gmap string string) tutor :
  known_tutor prompts tutor = true ->
  exists t prompt, tutor = JStr t /\ prompts !! t = Some prompt
                   /\ getitem prompts tutor = inr prompt.
Proof.
  unfold known_tutor, getitem. rewrite andb_true_iff. intros [_ H].
  destruct tutor; try discriminate.
  apply bool_decide_eq_true in H. destruct H as [prompt Hp].
  exists s, prompt. by rewrite Hp.
Qed.

(** A falsy tutor is rejected without looking at the registry. *)
Lemma chat_falsy_tutor d p :
  truthy (dict_get d "tutor" JNull) = false ->
  chat create (JObj d) p = (inr InvalidTutor, p).
Proof.
  intros Ht. unfold chat, bind, get, ret, gets. simpl. rewrite Ht. reflexivity.
Qed.

(** A hashable tutor that is no key of the registry is rejected. *)
Lemma chat_unknown_tutor d p :
  contains (TUTOR_PROMPTS p) (dict_get d "tutor" JNull) = inr false ->
  chat create (JObj d) p = (inr InvalidTutor, p).
Proof.
  intros Hc. unfold chat, bind, get, ret, gets. simpl.
  destruct (truthy (dict_get d "tutor" JNull)); simpl; [|reflexivity].
  rewrite Hc. reflexivity.
Qed.

(** A non-empty list or dict as tutor cannot be hashed: the membership test
    raises outside the [try], and the exception leaves the handler. *)
Lemma chat_unhashable_tutor d p :
  truthy (dict_get d "tutor" JNull) = true ->
  hashable (dict_get d "tutor" JNull) = false ->
  exists msg, chat create (JObj d) p = (inl (TypeError msg), p).
Proof.
  intros Ht Hh. unfold chat, bind, get, ret, gets. simpl. rewrite Ht. simpl.
  destruct (dict_get d "tutor" JNull); try discriminate; simpl; eauto.
Qed.

Lemma chat_empty_message d p :
  known_tutor (TUTOR_PROMPTS p) (dict_get d "tutor" JNull) = true ->
  truthy (dict_get d "message" JNull) = false ->
  chat create (JObj d) p = (inr EmptyMessage, p).
Proof.
  intros [Ht Hc]%known_tutor_contains Hm.
  unfold chat, bind, get, ret, gets. simpl. rewrite Ht. simpl.
  rewrite Hc. simpl. rewrite Hm. reflexivity.
Qed.

Lemma chat_valid d p :
  known_tutor (TUTOR_PROMPTS p) (dict_get d "tutor" JNull) = true ->
  truthy (dict_get d "message" JNull) = true ->
  chat create (JObj d) p
  = shaped
      match prepare_messages (TUTOR_PROMPTS p) (dict_get d "tutor" JNull)
              (dict_get d "message" JNull) (dict_get d "history" (JArr [])) with
      | inl e => (inl e, p)
      | inr msgs => try_models create msgs (MODELS p) None p
      end.
Proof.
  intros [Ht Hc]%known_tutor_contains Hm.
  unfold chat, bind, get, ret, gets. simpl. rewrite Ht. simpl.
  rewrite Hc. simpl. rewrite Hm. simpl.
  unfold try_except, shaped, bind.
  destruct (prepare_messages _ _ _ _) as [e|msgs]; simpl.
  - unfold print, emit, ServiceError. simpl. by rewrite app_nil_r.
  - destruct (try_models create msgs (MODELS p) None p) as [[e|r] p']; [|reflexivity].
    unfold print, emit, ServiceError. simpl. by rewrite app_nil_r.
Qed.

(** ** The loop as a whole *)

(** Every model failed: the loop raises what it remembered. *)
Lemma try_models_exhausted msgs models last_error p es w' :
  failures create msgs models (remote p) = Some (es, w') ->
  try_models create msgs models last_error p
  = (inl (exhausted (remembered last_error es)),
     emit (error_lines models es) (map (request_for msgs) models) w' p).
Proof.
  intros Hf.
  rewrite <- (app_nil_r models) at 1.
  rewrite (try_models_failures _ _ _ _ _ _ _ Hf). reflexivity.
Qed.

(** The models before [model] failed and [model] answered. *)
Lemma try_models_first_success msgs pre model post last_error p es w1 reply w2 :
  failures create msgs pre (remote p) = Some (es, w1) ->
  attempt create msgs model w1 = (inr reply, w2) ->
  try_models create msgs (pre ++ model :: post) last_error p
  = (inr (Success reply model),
     emit (error_lines pre es) (map (request_for msgs) (pre ++ [model])) w2 p).
Proof.
  intros Hf Hat.
  rewrite (try_models_failures _ _ _ _ _ _ _ Hf).
  rewrite (try_models_success _ _ _ _ _ reply w2) by exact Hat.
  rewrite emit_emit, app_nil_r, map_app. reflexivity.
Qed.

(** There is no third case. *)
Lemma loop_cases msgs models : forall w,
  (exists es w', failures create msgs models w = Some (es, w'))
  \/ (exists pre model post es w1 reply w2,
        models = pre ++ model :: post
        /\ failures create msgs pre w = Some (es, w1)
        /\ attempt create msgs model w1 = (inr reply, w2)).
Proof.
  induction models as [|model models IH]; intros w.
  - left. by exists [], w.
  - destruct (attempt create msgs model w) as [[e|reply] w1] eqn:Hat.
    + destruct (IH w1) as [(es & w' & Hf)|(pre & m & post & es & w2 & reply & w3 & -> & Hf & Hs)].
      * left. exists (e :: es), w'. simpl. by rewrite Hat, Hf.
      * right. exists (model :: pre), m, post, (e :: es), w2, reply, w3.
        split; [reflexivity|]. split; [|exact Hs]. simpl. by rewrite Hat, Hf.
    + right. exists [], model, models, [], w, reply, w1. by repeat split.
Qed.

(** ** History entries *)

Lemma append_history_well_formed hs : forall acc,
  forallb well_formed hs = true ->
  append_history hs acc = inr (acc ++ map verbatim hs).
Proof.
  induction hs as [|h hs IH]; intros acc Hwf; simpl.
  - by rewrite app_nil_r.
  - simpl in Hwf. apply andb_true_iff in Hwf as [Hh Hhs].
    unfold well_formed in Hh. unfold verbatim, field.
    destruct (subscript h "role") as [|role]; [discriminate|].
    destruct (subscript h "content") as [|content]; [discriminate|].
    rewrite IH by exact Hhs. by rewrite <- app_assoc.
Qed.

Lemma append_history_malformed hs : forall acc,
  forallb well_formed hs = false ->
  exists e, append_history hs acc = inl e.
Proof.
  induction hs as [|h hs IH]; intros acc Hwf; simpl in *; [discriminate|].
  unfold well_formed in Hwf.
  destruct (subscript h "role") as [e|role]; [by exists e|].
  destruct (subscript h "content") as [e|content]; [by exists e|].
  simpl in Hwf. eauto.
Qed.

Lemma valid_split p d :
  valid p d = true ->
  known_tutor (TUTOR_PROMPTS p) (dict_get d "tutor" JNull) = true
  /\ truthy (dict_get d "message" JNull) = true.
Proof. unfold valid. by rewrite andb_true_iff. Qed.

Lemma chat_valid_loop d p msgs :
  valid p d = true ->
  assembled p d = inr msgs ->
  chat create (JObj d) p = shaped (try_models create msgs (MODELS p) None p).
Proof.
  intros [Ht Hm]%valid_split Ha.
  rewrite (chat_valid _ _ Ht Hm).
  unfold assembled, tutor_of, message_of, history_of in Ha. by rewrite Ha.
Qed.

Lemma chat_valid_assembly_fails d p e :
  valid p d = true ->
  assembled p d = inl e ->
  chat create (JObj d) p
  = (inr (ServiceError e), emit ["Final error: " +:+ str e] [] (remote p) p).
Proof.
  intros [Ht Hm]%valid_split Ha.
  rewrite (chat_valid _ _ Ht Hm).
  unfold assembled, tutor_of, message_of, history_of in Ha. by rewrite Ha.
Qed.

(** ** Properties of the handler *)

(** C1. For a valid request whose messages assemble to [msgs]: when the
    models [pre] at the head of [MODELS] fail one after the other and the
    next model [model] answers with [reply], the handler returns status
    success with [reply] and [model] (HTTP 200), and the calls it made are
    exactly those for [pre] and [model], in that order: no model after
    [model] is called. *)
Theorem first_success_wins d p msgs pre model post es w1 reply w2 :
  valid p d = true ->
  assembled p d = inr msgs ->
  MODELS p = pre ++ model :: post ->
  failures create msgs pre (remote p) = Some (es, w1) ->
  attempt create msgs model w1 = (inr reply, w2) ->
  let (r, p') := chat create (JObj d) p in
  r = inr (JObj [("response", reply); ("status", JStr "success");
                 ("model", JStr model)], 200)
  /\ issued p' = issued p ++ map (request_for msgs) (pre ++ [model])
  /\ remote p' = w2.
Proof.
  intros Hv Ha HM Hf Hat.
  rewrite (chat_valid_loop _ _ _ Hv Ha), HM.
  rewrite (try_models_first_success _ _ _ _ _ _ _ _ _ _ Hf Hat).
  simpl. by repeat split.
Qed.

(** What the loop leaves behind, whatever the service does: some lines on
    standard output and the calls for a non-empty prefix of the models. *)
Lemma try_models_trace msgs models last_error p :
  exists k lines w',
    snd (try_models create msgs models last_error p)
    = emit lines (map (request_for msgs) (take k models)) w' p
    /\ (models <> [] -> (0 < k)%nat).
Proof.
  destruct (loop_cases msgs models (remote p))
    as [(es & w' & Hf)|(pre & m & post & es & w1 & reply & w2 & -> & Hf & Hs)].
  - rewrite (try_models_exhausted _ _ _ _ _ _ Hf). simpl.
    exists (length models), (error_lines models es), w'.
    rewrite firstn_all. split; [reflexivity|].
    destruct models; [congruence|simpl; lia].
  - rewrite (try_models_first_success _ _ _ _ _ _ _ _ _ _ Hf Hs). simpl.
    exists (S (length pre)), (error_lines pre es), w2. split; [|lia].
    replace (pre ++ m :: post) with ((pre ++ [m]) ++ post)
      by (by rewrite <- app_assoc).
    rewrite take_app_length'; [reflexivity|].
    rewrite length_app. simpl. lia.
Qed.

Lemma assembled_well_formed p d t prompt hs :
  tutor_of d = JStr t ->
  TUTOR_PROMPTS p !! t = Some prompt ->
  history_of d = JArr hs ->
  forallb well_formed hs = true ->
  assembled p d
  = inr (JObj [("role", JStr "system"); ("content", JStr prompt)]
         :: map verbatim hs
         ++ [JObj [("role", JStr "user"); ("content", message_of d)]]).
Proof.
  intros Ht Hp Hh Hwf. unfold assembled, prepare_messages.
  rewrite Ht, Hh. simpl. rewrite Hp.
  rewrite (append_history_well_formed _ _ Hwf). reflexivity.
Qed.

Lemma chat_valid_trace d p msgs :
  valid p d = true ->
  assembled p d = inr msgs ->
  exists k lines w',
    snd (chat create (JObj d) p)
    = emit lines (map (request_for msgs) (take k (MODELS p))) w' p
    /\ (MODELS p <> [] -> (0 < k)%nat).
Proof.
  intros Hv Ha. rewrite (chat_valid_loop _ _ _ Hv Ha).
  destruct (try_models_trace msgs (MODELS p) None p) as (k & lines & w' & Hs & Hk).
  destruct (try_models create msgs (MODELS p) None p) as [[e|r] p'];
    cbn [snd shaped] in *; subst p'.
  - exists k, (lines ++ ["Final error: " +:+ str e]), w'.
    split; [|exact Hk]. rewrite emit_emit, app_nil_r. reflexivity.
  - by exists k, lines, w'.
Qed.

(** C2. For a valid request with tutor [t], whose history is a list of
    entries that all have a role and a content, at least one call reaches
    the service, and the messages of every call are: the system message
    with the prompt registered for [t], then each history entry mapped to
    its (role, content) in the original order, then the user message with
    the request's message as it came.  With the registry as loaded, the
    prompt for "physics" is the Mr. Newton text. *)
Theorem messages_sent d p t prompt hs :
  valid p d = true ->
  tutor_of d = JStr t ->
  TUTOR_PROMPTS p !! t = Some prompt ->
  history_of d = JArr hs ->
  forallb well_formed hs = true ->
  MODELS p <> [] ->
  (exists rq rqs,
     issued (snd (chat create (JObj d) p)) = issued p ++ rq :: rqs
     /\ Forall (fun rq' => messages rq'
                  = JObj [("role", JStr "system"); ("content", JStr prompt)]
                    :: map verbatim hs
                    ++ [JObj [("role", JStr "user"); ("content", message_of d)]])
               (rq :: rqs))
  /\ (t = "physics" -> TUTOR_PROMPTS p = TUTOR_PROMPTS_init ->
      prompt = newton_prompt).
Proof.
  intros Hv Ht Hp Hh Hwf HM. split.
  - pose proof (assembled_well_formed _ _ _ _ _ Ht Hp Hh Hwf) as Ha.
    destruct (chat_valid_trace _ _ _ Hv Ha) as (k & lines & w' & -> & Hk).
    specialize (Hk HM).
    destruct (MODELS p) as [|m ms]; [congruence|].
    destruct k as [|k]; [lia|].
    cbn [emit issued take map].
    eexists _, _; split; [reflexivity|].
    constructor; [reflexivity|].
    apply Forall_forall. intros rq [m' [<- _]]%list_elem_of_In%in_map_iff.
    reflexivity.
  - intros -> HP. rewrite HP in Hp. vm_compute in Hp. by injection Hp as <-.
Qed.

(** X12. Validation on the tutor values the membership test can handle
    comes before any call, the tutor check first.  A tutor
    that is missing, empty (or falsy in any other way), or a hashable value
    that is no key of the registry gives the InvalidTutor response,
    whatever the message is; a known tutor with a missing or empty message
    gives the EmptyMessage response.  In both cases the process is left
    exactly as it was: nothing is printed and no call reaches the service. *)
Theorem validation_first d p :
  ((truthy (tutor_of d) = false
    \/ (hashable (tutor_of d) = true
        /\ known_tutor (TUTOR_PROMPTS p) (tutor_of d) = false)) ->
   chat create (JObj d) p
   = (inr (JObj [("response", JStr "Invalid tutor selected");
                 ("status", JStr "error")], 400), p))
  /\ (known_tutor (TUTOR_PROMPTS p) (tutor_of d) = true ->
      truthy (message_of d) = false ->
      chat create (JObj d) p
      = (inr (JObj [("response", JStr "Message cannot be empty");
                    ("status", JStr "error")], 400), p)).
Proof.
  split.
  - intros [Hf|[Hh Hk]]; [by apply chat_falsy_tutor|].
    destruct (truthy (tutor_of d)) eqn:Ht; [|by apply chat_falsy_tutor].
    apply chat_unknown_tutor. fold (tutor_of d).
    unfold known_tutor in Hk. rewrite Ht in Hk. simpl in Hk.
    unfold contains. destruct (tutor_of d); try discriminate; try reflexivity.
    by rewrite Hk.
  - intros Hk Hm. by apply chat_empty_message.
Qed.

(** C4. For a valid request whose messages assemble: when every model of
    [MODELS] fails, the handler returns HTTP 500 with status error, the
    fixed apology and, as error field, the text of the last failure alone;
    the earlier failures only show on standard output. *)
Theorem all_models_failed d p msgs es w' e :
  valid p d = true ->
  assembled p d = inr msgs ->
  failures create msgs (MODELS p) (remote p) = Some (es, w') ->
  last es = Some e ->
  chat create (JObj d) p
  = (inr (JObj [("response",
                 JStr "Sorry, I'm having trouble connecting to the tutor service. Please try again later.");
                ("status", JStr "error");
                ("error", JStr (str e))], 500),
     emit (error_lines (MODELS p) es ++ ["Final error: " +:+ str e])
          (map (request_for msgs) (MODELS p)) w' p).
Proof.
  intros Hv Ha Hf Hl.
  rewrite (chat_valid_loop _ _ _ Hv Ha).
  rewrite (try_models_exhausted _ _ _ _ _ _ Hf).
  unfold remembered. rewrite Hl. cbn [shaped exhausted remote emit].
  fold (emit (error_lines (MODELS p) es) (map (request_for msgs) (MODELS p)) w' p).
  rewrite emit_emit, app_nil_r. reflexivity.
Qed.

(** The four shapes a dict request can end in. *)
Lemma chat_outcomes d p :
  (exists e, chat create (JObj d) p = (inl e, p))
  \/ chat create (JObj d) p = (inr InvalidTutor, p)
  \/ chat create (JObj d) p = (inr EmptyMessage, p)
  \/ (exists e p', chat create (JObj d) p = (inr (ServiceError e), p'))
  \/ (exists reply model p', chat create (JObj d) p = (inr (Success reply model), p')).
Proof.
  destruct (truthy (tutor_of d)) eqn:Ht;
    [|right; left; by apply chat_falsy_tutor].
  destruct (contains (TUTOR_PROMPTS p) (tutor_of d)) as [e|[|]] eqn:Hc.
  - left. exists e. unfold chat, bind, get, ret, gets. simpl.
    fold (tutor_of d). rewrite Ht. simpl. by rewrite Hc.
  - assert (known_tutor (TUTOR_PROMPTS p) (tutor_of d) = true) as Hk
      by (by apply known_tutor_contains).
    destruct (truthy (message_of d)) eqn:Hm;
      [|right; right; left; by apply chat_empty_message].
    rewrite (chat_valid _ _ Hk Hm).
    destruct (prepare_messages _ _ _ _) as [e|msgs].
    { right; right; right; left. simpl. eauto. }
    destruct (loop_cases msgs (MODELS p) (remote p))
      as [(es & w' & Hf)|(pre & m & post & es & w1 & reply & w2 & HM & Hf & Hs)].
    + rewrite (try_models_exhausted _ _ _ _ _ _ Hf).
      right; right; right; left. simpl. eauto.
    + rewrite HM, (try_models_first_success _ _ _ _ _ _ _ _ _ _ Hf Hs).
      right; right; right; right. simpl. eauto.
  - right; left. by apply chat_unknown_tutor.
Qed.

(** C5. Whenever the handler answers with status error, the response text
    is one of the three fixed strings, whatever the service returned or
    raised during the request. *)
Theorem error_text_fixed data p body code p' :
  chat create data p = (inr (body, code), p') ->
  subscript body "status" = inr (JStr "error") ->
  subscript body "response" = inr (JStr "Invalid tutor selected")
  \/ subscript body "response" = inr (JStr "Message cannot be empty")
  \/ subscript body "response"
     = inr (JStr "Sorry, I'm having trouble connecting to the tutor service. Please try again later.").
Proof.
  intros Hc Hs.
  destruct data as [| | | | |d]; try discriminate.
  destruct (chat_outcomes d p)
    as [(e & H)|[H|[H|[(e & q & H)|(reply & model & q & H)]]]];
    rewrite H in Hc; try discriminate; injection Hc as <- <- <-; auto.
  discriminate.
Qed.

(** C6, as the code has it.  When every model of [MODELS] fails, the error
    field of the response is [str] of the exception of the last model
    tried, as it is: it is non-empty exactly when that text is. *)
Theorem diagnostic_is_last_text d p msgs es w' e :
  valid p d = true ->
  assembled p d = inr msgs ->
  failures create msgs (MODELS p) (remote p) = Some (es, w') ->
  last es = Some e ->
  exists body,
    fst (chat create (JObj d) p) = inr (body, 500)
    /\ subscript body "error" = inr (JStr (str e))
    /\ (subscript body "error" = inr (JStr EmptyString) <-> str e = EmptyString).
Proof.
  intros Hv Ha Hf Hl.
  rewrite (chat_valid_loop _ _ _ Hv Ha).
  rewrite (try_models_exhausted _ _ _ _ _ _ Hf).
  unfold remembered. rewrite Hl. cbn [shaped exhausted fst].
  eexists. split; [reflexivity|]. split; [reflexivity|].
  cbn. split; [intros [= ->]|intros ->]; reflexivity.
Qed.

(** C7. Every call the handler issues carries the message sequence
    assembled for the request, temperature 0.7 and max_tokens 1000, and the
    models called are the first ones of [MODELS], in order. *)
Theorem call_parameters data p :
  exists rqs,
    issued (snd (chat create data p)) = issued p ++ rqs
    /\ Forall (fun rq => (exists d, data = JObj d /\ assembled p d = inr (messages rq))
                         /\ temperature rq = 7 # 10
                         /\ max_tokens rq = 1000) rqs
    /\ exists k, map model rqs = take k (MODELS p).
Proof.
  assert (forall q, q = p -> exists rqs, issued q = issued p ++ rqs
            /\ Forall (fun rq => (exists d, data = JObj d
                                            /\ assembled p d = inr (messages rq))
                         /\ temperature rq = 7 # 10
                         /\ max_tokens rq = 1000) rqs
            /\ exists k, map model rqs = take k (MODELS p)) as Hsame.
  { intros q ->. exists []. rewrite app_nil_r. repeat split; [constructor|].
    by exists 0%nat. }
  destruct data as [| | | | |d]; try (by apply Hsame).
  destruct (truthy (tutor_of d)) eqn:Ht;
    [|rewrite chat_falsy_tutor by exact Ht; by apply Hsame].
  destruct (contains (TUTOR_PROMPTS p) (tutor_of d)) as [e|[|]] eqn:Hc.
  - apply Hsame. unfold chat, bind, get, ret, gets. simpl.
    fold (tutor_of d). rewrite Ht. simpl. by rewrite Hc.
  - assert (known_tutor (TUTOR_PROMPTS p) (tutor_of d) = true) as Hk
      by (by apply known_tutor_contains).
    destruct (truthy (message_of d)) eqn:Hm;
      [|rewrite chat_empty_message by assumption; by apply Hsame].
    assert (valid p d = true) as Hv by (unfold valid; by rewrite Hk, Hm).
    destruct (assembled p d) as [e|msgs] eqn:Ha.
    { rewrite (chat_valid_assembly_fails _ _ _ Hv Ha). cbn [snd emit issued].
      exists []. rewrite app_nil_r. repeat split; [constructor|]. by exists 0%nat. }
    destruct (chat_valid_trace _ _ _ Hv Ha) as (k & lines & w' & -> & _).
    cbn [emit issued].
    exists (map (request_for msgs) (take k (MODELS p))). split; [reflexivity|].
    split.
    + apply Forall_forall. intros rq [m [<- _]]%list_elem_of_In%in_map_iff.
      repeat split. by exists d.
    + exists k. rewrite map_map. simpl. apply map_id.
  - rewrite chat_unknown_tutor by exact Hc. by apply Hsame.
Qed.

(** What a request does to the process depends on the two globals and on
    the service only, and consists of printed lines and issued calls. *)
Lemma chat_footprint data p :
  exists r lines rqs w',
    forall q,
      TUTOR_PROMPTS q = TUTOR_PROMPTS p -> MODELS q = MODELS p ->
      remote q = remote p ->
      chat create data q = (r, emit lines rqs w' q).
Proof.
  assert (forall r, (forall q, TUTOR_PROMPTS q = TUTOR_PROMPTS p ->
                       MODELS q = MODELS p -> remote q = remote p ->
                       chat create data q = (r, q)) ->
          exists r lines rqs w', forall q,
            TUTOR_PROMPTS q = TUTOR_PROMPTS p -> MODELS q = MODELS p ->
            remote q = remote p ->
            chat create data q = (r, emit lines rqs w' q)) as Hsame.
  { intros r Hr. exists r, [], [], (remote p). intros q HT HM Hw.
    rewrite <- Hw, emit_nil. by apply Hr. }
  destruct data as [| | | | |d]; try (by eapply Hsame; intros q _ _ _).
  destruct (truthy (tutor_of d)) eqn:Ht;
    [|eapply Hsame; intros q _ _ _; by apply chat_falsy_tutor].
  destruct (contains (TUTOR_PROMPTS p) (tutor_of d)) as [e|[|]] eqn:Hc.
  - eapply Hsame. intros q HT _ _. unfold chat, bind, get, ret, gets. simpl.
    fold (tutor_of d). rewrite Ht. simpl. rewrite HT, Hc. reflexivity.
  - assert (known_tutor (TUTOR_PROMPTS p) (tutor_of d) = true) as Hk
      by (by apply known_tutor_contains).
    destruct (truthy (message_of d)) eqn:Hm;
      [|eapply Hsame; intros q HT _ _; apply chat_empty_message;
        [by rewrite HT|exact Hm]].
    assert (forall q : @process W,
              TUTOR_PROMPTS q = TUTOR_PROMPTS p -> valid q d = true) as Hv.
    { intros q HT. unfold valid. by rewrite HT, Hk, Hm. }
    destruct (assembled p d) as [e|msgs] eqn:Ha.
    { exists (inr (ServiceError e)), ["Final error: " +:+ str e], [], (remote p).
      intros q HT HM Hw. rewrite <- Hw. apply chat_valid_assembly_fails; [by apply Hv|].
      unfold assembled in *. by rewrite HT. }
    assert (forall q : @process W,
              TUTOR_PROMPTS q = TUTOR_PROMPTS p -> assembled q d = inr msgs) as Hq.
    { intros q HT. unfold assembled in *. by rewrite HT. }
    destruct (loop_cases msgs (MODELS p) (remote p))
      as [(es & w' & Hf)|(pre & m & post & es & w1 & reply & w2 & HMp & Hf & Hs)].
    + eexists _, _, _, _. intros q HT HM Hw.
      rewrite (chat_valid_loop _ _ _ (Hv q HT) (Hq q HT)).
      rewrite <- Hw, <- HM in Hf.
      rewrite (try_models_exhausted _ _ _ _ _ _ Hf), HM.
      cbn [shaped remote emit].
      fold (emit (error_lines (MODELS p) es) (map (request_for msgs) (MODELS p)) w' q).
      rewrite emit_emit, app_nil_r. reflexivity.
    + eexists _, _, _, _. intros q HT HM Hw.
      rewrite (chat_valid_loop _ _ _ (Hv q HT) (Hq q HT)).
      rewrite <- Hw in Hf.
      rewrite HM, HMp, (try_models_first_success _ _ _ _ _ _ _ _ _ _ Hf Hs).
      reflexivity.
  - eapply Hsame. intros q HT _ _. apply chat_unknown_tutor. by rewrite HT.
Qed.

(** C8. Handling a request leaves the prompt table and the model list as
    they were.  Apart from the service, the handler only adds to standard
    output and to the record of issued calls, and it reads neither: on a
    process that differs in those two alone it returns the same response
    and drives the service the same way. *)
Theorem globals_unchanged data p :
  TUTOR_PROMPTS (snd (chat create data p)) = TUTOR_PROMPTS p
  /\ MODELS (snd (chat create data p)) = MODELS p
  /\ forall q,
       TUTOR_PROMPTS q = TUTOR_PROMPTS p -> MODELS q = MODELS p ->
       remote q = remote p ->
       fst (chat create data q) = fst (chat create data p)
       /\ remote (snd (chat create data q)) = remote (snd (chat create data p)).
Proof.
  destruct (chat_footprint data p) as (r & lines & rqs & w' & H).
  rewrite (H p) by reflexivity. repeat split; try reflexivity.
  all: rewrite (H q) by assumption; reflexivity.
Qed.




Lemma malformed_not_assembled p d hs :
  known_tutor (TUTOR_PROMPTS p) (tutor_of d) = true ->
  history_of d = JArr hs ->
  forallb well_formed hs = false ->
  exists e, assembled p d = inl e.
Proof.
  intros (t & prompt & _ & _ & Hg)%known_tutor_getitem Hh Hwf.
  unfold assembled, prepare_messages. rewrite Hg, Hh. simpl.
  destruct (append_history_malformed hs
              [JObj [("role", JStr "system"); ("content", JStr prompt)]] Hwf)
    as [e He].
  exists e. by rewrite He.
Qed.

(** C10. For a request that passes validation and whose history list holds
    an entry lacking a role or a content, assembling the messages raises;
    the handler answers HTTP 500 with status error, the apology and a
    diagnostic, and no call reaches the service. *)
Theorem malformed_history_is_service_error d p hs :
  valid p d = true ->
  history_of d = JArr hs ->
  forallb well_formed hs = false ->
  exists e,
    fst (chat create (JObj d) p)
    = inr (JObj [("response",
                  JStr "Sorry, I'm having trouble connecting to the tutor service. Please try again later.");
                 ("status", JStr "error");
                 ("error", JStr (str e))], 500)
    /\ issued (snd (chat create (JObj d) p)) = issued p
    /\ remote (snd (chat create (JObj d) p)) = remote p.
Proof.
  intros Hv Hh Hwf.
  destruct (valid_split _ _ Hv) as [Hk _].
  destruct (malformed_not_assembled _ _ _ Hk Hh Hwf) as [e Ha].
  exists e. rewrite (chat_valid_assembly_fails _ _ _ Hv Ha).
  cbn [fst snd emit issued remote]. by rewrite app_nil_r.
Qed.

(** ** Every way a request can end *)

(** The outcome and the process after it, case by case. *)
Lemma chat_cases d p :
  (exists e, escapes (JObj d) = Some e /\ chat create (JObj d) p = (inl e, p))
  \/ (escapes (JObj d) = None /\ chat create (JObj d) p = (inr InvalidTutor, p))
  \/ (escapes (JObj d) = None /\ chat create (JObj d) p = (inr EmptyMessage, p))
  \/ (escapes (JObj d) = None /\ valid p d = true
      /\ exists e,
           assembled p d = inl e
           /\ chat create (JObj d) p
              = (inr (ServiceError e),
                 emit ["Final error: " +:+ str e] [] (remote p) p))
  \/ (escapes (JObj d) = None /\ valid p d = true
      /\ exists msgs es w',
           assembled p d = inr msgs
           /\ failures create msgs (MODELS p) (remote p) = Some (es, w')
           /\ chat create (JObj d) p
              = (inr (ServiceError (exhausted (remembered None es))),
                 emit (error_lines (MODELS p) es
                       ++ ["Final error: " +:+ str (exhausted (remembered None es))])
                      (map (request_for msgs) (MODELS p)) w' p))
  \/ (escapes (JObj d) = None /\ valid p d = true
      /\ exists msgs pre model post es w1 reply w2,
           assembled p d = inr msgs
           /\ MODELS p = pre ++ model :: post
           /\ failures create msgs pre (remote p) = Some (es, w1)
           /\ attempt create msgs model w1 = (inr reply, w2)
           /\ chat create (JObj d) p
              = (inr (Success reply model),
                 emit (error_lines pre es)
                      (map (request_for msgs) (pre ++ [model])) w2 p)).
Proof.
  unfold escapes.
  destruct (truthy (tutor_of d)) eqn:Ht;
    [|right; left; split; [reflexivity|by apply chat_falsy_tutor]].
  destruct (contains (TUTOR_PROMPTS p) (tutor_of d)) as [e|[|]] eqn:Hc.
  - left. unfold contains in Hc.
    destruct (tutor_of d) eqn:Hd; try discriminate; injection Hc as <-.
    all: eexists; split; [reflexivity|].
    all: unfold chat, bind, get, ret, gets; simpl.
    all: fold (tutor_of d); rewrite Hd, Ht; reflexivity.
  - assert (hashable (tutor_of d) = true) as Hh
      by (unfold contains in Hc; by destruct (tutor_of d)).
    rewrite Hh. simpl.
    assert (known_tutor (TUTOR_PROMPTS p) (tutor_of d) = true) as Hk
      by (by apply known_tutor_contains).
    destruct (truthy (message_of d)) eqn:Hm;
      [|right; right; left; split; [reflexivity|by apply chat_empty_message]].
    assert (valid p d = true) as Hv by (unfold valid; by rewrite Hk, Hm).
    destruct (assembled p d) as [e|msgs] eqn:Ha.
    { right; right; right; left. split; [reflexivity|]. split; [exact Hv|].
      exists e. split; [reflexivity|]. by apply chat_valid_assembly_fails. }
    destruct (loop_cases msgs (MODELS p) (remote p))
      as [(es & w' & Hf)|(pre & m & post & es & w1 & reply & w2 & HM & Hf & Hs)].
    + right; right; right; right; left. split; [reflexivity|]. split; [exact Hv|].
      exists msgs, es, w'. split; [reflexivity|]. split; [exact Hf|].
      rewrite (chat_valid_loop _ _ _ Hv Ha).
      rewrite (try_models_exhausted _ _ _ _ _ _ Hf).
      cbn [shaped remote emit].
      fold (emit (error_lines (MODELS p) es) (map (request_for msgs) (MODELS p)) w' p).
      rewrite emit_emit, app_nil_r. reflexivity.
    + right; right; right; right; right. split; [reflexivity|]. split; [exact Hv|].
      exists msgs, pre, m, post, es, w1, reply, w2.
      split; [reflexivity|]. split; [exact HM|]. split; [exact Hf|]. split; [exact Hs|].
      rewrite (chat_valid_loop _ _ _ Hv Ha), HM.
      rewrite (try_models_first_success _ _ _ _ _ _ _ _ _ _ Hf Hs). reflexivity.
  - assert (hashable (tutor_of d) = true) as Hh
      by (unfold contains in Hc; by destruct (tutor_of d)).
    rewrite Hh. simpl.
    right; left. split; [reflexivity|]. by apply chat_unknown_tutor.
Qed.

(** X1. Once [request.json] has returned the body, and with a service that
    fails by raising [Exception] instances (what the two [except] clauses
    catch), an exception leaves the handler in two cases only: the body is
    no dict ([get] is missing), or the tutor is a non-empty list or dict (it
    cannot be hashed for the membership test).  The process is then left as
    it was.  In every other case the handler returns a response. *)
Theorem escaping_exceptions data p :
  match escapes data with
  | Some e => chat create data p = (inl e, p)
  | None => exists r p', chat create data p = (inr r, p')
  end.
Proof.
  destruct data as [| | | | |d]; try reflexivity.
  destruct (chat_cases d p)
    as [(e & -> & H)|[[-> H]|[[-> H]|[(-> & _ & e & _ & H)
       |[(-> & _ & msgs & es & w' & _ & _ & H)
        |(-> & _ & msgs & pre & m & post & es & w1 & reply & w2 & _ & _ & _ & _ & H)]]]]];
    rewrite H; eauto.
Qed.

(** X2. The status code, the status field and the optional fields go
    together: 200 comes with status success and a model taken from [MODELS]
    and no error field; 400 with status error and neither field; 500 with
    status error, an error text and no model field. *)
Theorem response_shape data p body code p' :
  chat create data p = (inr (body, code), p') ->
  (code = 200
   /\ subscript body "status" = inr (JStr "success")
   /\ (exists m, subscript body "model" = inr (JStr m) /\ In m (MODELS p))
   /\ subscript body "error" = inl (KeyError (JStr "error")))
  \/ (code = 400
      /\ subscript body "status" = inr (JStr "error")
      /\ subscript body "model" = inl (KeyError (JStr "model"))
      /\ subscript body "error" = inl (KeyError (JStr "error")))
  \/ (code = 500
      /\ subscript body "status" = inr (JStr "error")
      /\ subscript body "model" = inl (KeyError (JStr "model"))
      /\ exists text, subscript body "error" = inr (JStr text)).
Proof.
  intros Hc. destruct data as [| | | | |d]; try discriminate.
  destruct (chat_cases d p)
    as [(e & _ & H)|[[_ H]|[[_ H]|[(_ & _ & e & _ & H)
       |[(_ & _ & msgs & es & w' & _ & _ & H)
        |(_ & _ & msgs & pre & m & post & es & w1 & reply & w2 & _ & HM & _ & _ & H)]]]]];
    rewrite H in Hc; try discriminate; injection Hc as <- <- <-.
  - right; left. by repeat split.
  - right; left. by repeat split.
  - right; right. repeat split. by eexists.
  - right; right. repeat split. by eexists.
  - left. repeat split. exists m. split; [reflexivity|].
    rewrite HM. apply in_or_app. right. by left.
Qed.

(** X3. A 200 response is only given when a model answered: the model it
    names is in [MODELS], every model before it was called and failed on
    this request, it was called last, and the response carries its reply.
    One line was printed for each failed model and nothing else. *)
Theorem success_means_first_answer d p body p' :
  chat create (JObj d) p = (inr (body, 200), p') ->
  exists msgs pre model post es w1 reply w2,
    assembled p d = inr msgs
    /\ MODELS p = pre ++ model :: post
    /\ failures create msgs pre (remote p) = Some (es, w1)
    /\ attempt create msgs model w1 = (inr reply, w2)
    /\ body = JObj [("response", reply); ("status", JStr "success");
                    ("model", JStr model)]
    /\ stdout p' = stdout p ++ error_lines pre es
    /\ issued p' = issued p ++ map (request_for msgs) (pre ++ [model])
    /\ remote p' = w2.
Proof.
  intros Hc.
  destruct (chat_cases d p)
    as [(e & _ & H)|[[_ H]|[[_ H]|[(_ & _ & e & _ & H)
       |[(_ & _ & msgs & es & w' & _ & _ & H)
        |(_ & _ & msgs & pre & m & post & es & w1 & reply & w2 & Ha & HM & Hf & Hs & H)]]]]];
    rewrite H in Hc; try discriminate.
  injection Hc as <- <-.
  exists msgs, pre, m, post, es, w1, reply, w2. by repeat split.
Qed.

Lemma error_lines_length models : forall es,
  (length (error_lines models es) <= length models)%nat.
Proof.
  induction models as [|m models IH]; intros [|e es]; simpl; try lia.
  specialize (IH es). lia.
Qed.

(** X4. A request never costs more calls than there are models in
    [MODELS], and the handler only adds to standard output and to the calls
    made: at most one line for each call and one more for the final error. *)
Theorem calls_bounded data p :
  exists lines rqs,
    stdout (snd (chat create data p)) = stdout p ++ lines
    /\ issued (snd (chat create data p)) = issued p ++ rqs
    /\ (length rqs <= length (MODELS p))%nat
    /\ (length lines <= S (length rqs))%nat.
Proof.
  assert (forall r, chat create data p = (r, p) ->
          exists lines rqs,
            stdout (snd (chat create data p)) = stdout p ++ lines
            /\ issued (snd (chat create data p)) = issued p ++ rqs
            /\ (length rqs <= length (MODELS p))%nat
            /\ (length lines <= S (length rqs))%nat) as Hsame.
  { intros r ->. exists [], []. rewrite !app_nil_r. simpl. repeat split; lia. }
  destruct data as [| | | | |d]; try (by eapply Hsame).
  destruct (chat_cases d p)
    as [(e & _ & H)|[[_ H]|[[_ H]|[(_ & _ & e & _ & H)
       |[(_ & _ & msgs & es & w' & _ & _ & H)
        |(_ & _ & msgs & pre & m & post & es & w1 & reply & w2 & _ & HM & _ & _ & H)]]]]];
    try (by eapply Hsame); rewrite H; cbn [snd emit stdout issued].
  - eexists _, _. split; [reflexivity|]. split; [reflexivity|]. simpl. lia.
  - eexists _, _. split; [reflexivity|]. split; [reflexivity|].
    rewrite length_map, length_app. simpl.
    pose proof (error_lines_length (MODELS p) es). lia.
  - eexists _, _. split; [reflexivity|]. split; [reflexivity|].
    rewrite length_map, HM, !length_app. simpl.
    pose proof (error_lines_length pre es). lia.
Qed.

(** X5. With no model to try, the loop body never runs and [last_error] is
    still [None]: a valid request gets HTTP 500 with the diagnostic
    "All models failed", and no call is made. *)
Theorem no_model_to_try d p msgs :
  valid p d = true ->
  assembled p d = inr msgs ->
  MODELS p = [] ->
  chat create (JObj d) p
  = (inr (JObj [("response",
                 JStr "Sorry, I'm having trouble connecting to the tutor service. Please try again later.");
                ("status", JStr "error");
                ("error", JStr "All models failed")], 500),
     emit ["Final error: All models failed"] [] (remote p) p).
Proof.
  intros Hv Ha HM. rewrite (chat_valid_loop _ _ _ Hv Ha), HM. reflexivity.
Qed.

(** X6. The handler reads the body through the keys tutor, message and
    history only, and the history only by running over it: two bodies with
    the same tutor and message whose histories hold the same elements get
    the same outcome.  So other keys are ignored, and a history that is
    absent, an empty list, an empty dict or an empty string is all one. *)
Theorem same_fields_same_outcome d d' p :
  tutor_of d = tutor_of d' ->
  message_of d = message_of d' ->
  iterate (history_of d) = iterate (history_of d') ->
  chat create (JObj d) p = chat create (JObj d') p.
Proof.
  intros Ht Hm Hh.
  assert (forall prompts,
            prepare_messages prompts (tutor_of d) (message_of d) (history_of d)
            = prepare_messages prompts (tutor_of d') (message_of d') (history_of d'))
    as Hp.
  { intros prompts. unfold prepare_messages. by rewrite Ht, Hm, Hh. }
  unfold chat, get. cbv beta iota delta [bind ret].
  fold (tutor_of d) (tutor_of d') (message_of d) (message_of d')
       (history_of d) (history_of d').
  rewrite Ht, Hm in *. unfold try_except, gets, lift.
  destruct (truthy (tutor_of d')); cbn [negb]; [|reflexivity].
  destruct (contains (TUTOR_PROMPTS p) (tutor_of d')) as [e|[|]];
    cbv beta iota delta [raise ret negb]; try reflexivity.
  destruct (truthy (message_of d')); cbn [negb]; [|reflexivity].
  rewrite Hp. reflexivity.
Qed.

(** X7. The default of [get] only stands in for a missing key.  A history
    that is present but null, a boolean or a number cannot be run over:
    the valid request ends in HTTP 500 with the text of that [TypeError],
    and no call is made. *)
Theorem history_not_iterable d p :
  valid p d = true ->
  iterable (history_of d) = false ->
  chat create (JObj d) p
  = (inr (JObj [("response",
                 JStr "Sorry, I'm having trouble connecting to the tutor service. Please try again later.");
                ("status", JStr "error");
                ("error",
                 JStr ("'" +:+ type_name (history_of d) +:+ "' object is not iterable"))],
          500),
     emit ["Final error: '" +:+ type_name (history_of d) +:+ "' object is not iterable"]
          [] (remote p) p).
Proof.
  intros Hv Hi.
  destruct (valid_split _ _ Hv) as [Hk _].
  destruct (known_tutor_getitem _ _ Hk) as (t & prompt & _ & _ & Hg).
  rewrite (chat_valid_assembly_fails d p
             (TypeError ("'" +:+ type_name (history_of d) +:+ "' object is not iterable")) Hv).
  - reflexivity.
  - unfold assembled, prepare_messages, tutor_of. rewrite Hg.
    destruct (history_of d); try discriminate; reflexivity.
Qed.

Lemma append_history_stops good : forall acc items key rest,
  forallb well_formed good = true ->
  missing_key items = Some key ->
  append_history (good ++ JObj items :: rest) acc = inl (KeyError (JStr key)).
Proof.
  induction good as [|h good IH]; intros acc items key rest Hwf Hk.
  - simpl. unfold missing_key in Hk.
    destruct (assoc "role" items); [|by injection Hk as <-].
    destruct (assoc "content" items); [discriminate|by injection Hk as <-].
  - simpl in Hwf. apply andb_true_iff in Hwf as [Hh Hgood].
    simpl. unfold well_formed in Hh.
    destruct (subscript h "role") as [|role]; [discriminate|].
    destruct (subscript h "content") as [|content]; [discriminate|].
    by apply IH.
Qed.

(** X8. The history is read entry by entry, role before content, and the
    first entry that lacks a key ends the request: the diagnostic is the
    repr of the first key missing from the first incomplete dict entry,
    whatever entries follow it, and no call is made. *)
Theorem first_missing_key_reported d p good items rest key :
  valid p d = true ->
  history_of d = JArr (good ++ JObj items :: rest) ->
  forallb well_formed good = true ->
  missing_key items = Some key ->
  chat create (JObj d) p
  = (inr (JObj [("response",
                 JStr "Sorry, I'm having trouble connecting to the tutor service. Please try again later.");
                ("status", JStr "error");
                ("error", JStr ("'" +:+ key +:+ "'"))], 500),
     emit ["Final error: '" +:+ key +:+ "'"] [] (remote p) p).
Proof.
  intros Hv Hh Hwf Hk.
  destruct (valid_split _ _ Hv) as [Hkn _].
  destruct (known_tutor_getitem _ _ Hkn) as (t & prompt & _ & _ & Hg).
  rewrite (chat_valid_assembly_fails d p (KeyError (JStr key)) Hv).
  - reflexivity.
  - unfold assembled, prepare_messages, tutor_of. rewrite Hg, Hh. simpl.
    by rewrite (append_history_stops good _ items key rest Hwf Hk).
Qed.

Lemma registry_keys t :
  is_Some (TUTOR_PROMPTS_init !! t)
  <-> In t ["physics"; "chemistry"; "biology"; "math"].
Proof.
  unfold TUTOR_PROMPTS_init.
  rewrite !lookup_insert_is_Some, lookup_empty, is_Some_alt. simpl.
  split.
  - intros [->|[_ [->|[_ [->|[_ [->|[_ []]]]]]]]]; auto.
  - intros [<-|[<-|[<-|[<-|[]]]]].
    + by left.
    + right. split; [done|]. by left.
    + right. split; [done|]. right. split; [done|]. by left.
    + right. split; [done|]. right. split; [done|]. right. split; [done|]. by left.
Qed.

Lemma chat_known_not_invalid d p :
  known_tutor (TUTOR_PROMPTS p) (tutor_of d) = true ->
  fst (chat create (JObj d) p) <> inr InvalidTutor.
Proof.
  intros Hk.
  destruct (truthy (message_of d)) eqn:Hm;
    [|by rewrite (chat_empty_message _ _ Hk Hm)].
  rewrite (chat_valid _ _ Hk Hm).
  destruct (prepare_messages _ _ _ _) as [e|msgs]; [by cbn|].
  destruct (loop_cases msgs (MODELS p) (remote p))
    as [(es & w' & Hf)|(pre & m & post & es & w1 & reply & w2 & HM & Hf & Hsu)].
  - rewrite (try_models_exhausted _ _ _ _ _ _ Hf). by cbn.
  - rewrite HM, (try_models_first_success _ _ _ _ _ _ _ _ _ _ Hf Hsu). by cbn.
Qed.

(** X9. With the prompt table as the module defines it, a string tutor is
    turned away as invalid exactly when it is none of physics, chemistry,
    biology and math, as spelled: no other spelling or case is accepted. *)
Theorem registered_tutors d p t :
  TUTOR_PROMPTS p = TUTOR_PROMPTS_init ->
  tutor_of d = JStr t ->
  fst (chat create (JObj d) p)
  = inr (JObj [("response", JStr "Invalid tutor selected");
               ("status", JStr "error")], 400)
  <-> ~ In t ["physics"; "chemistry"; "biology"; "math"].
Proof.
  intros HP Ht. split.
  - intros Hc Hin.
    apply (chat_known_not_invalid d p); [|exact Hc].
    unfold known_tutor. rewrite Ht, HP. apply andb_true_iff. split.
    + destruct Hin as [<-|[<-|[<-|[<-|[]]]]]; reflexivity.
    + apply bool_decide_eq_true. by apply registry_keys.
  - intros Hn. rewrite chat_unknown_tutor; [reflexivity|].
    fold (tutor_of d). rewrite Ht, HP. unfold contains. f_equal.
    apply bool_decide_eq_false. by rewrite registry_keys.
Qed.

(** X10. The reply is whatever [content] the first choice holds, and the
    other choices are not looked at.  A [None] content is no failure: the
    handler answers 200 with status success and a null response, after that
    one call. *)
Theorem null_reply_is_success d p msgs model rest cs w' :
  valid p d = true ->
  assembled p d = inr msgs ->
  MODELS p = model :: rest ->
  create (request_for msgs model) (remote p)
  = (inr {| choices := {| message := {| content := None |} |} :: cs |}, w') ->
  chat create (JObj d) p
  = (inr (JObj [("response", JNull); ("status", JStr "success");
                ("model", JStr model)], 200),
     emit [] [request_for msgs model] w' p).
Proof.
  intros Hv Ha HM Hc.
  rewrite (chat_valid_loop _ _ _ Hv Ha), HM.
  rewrite (try_models_success msgs model rest None p JNull w'); [reflexivity|].
  unfold attempt. by rewrite Hc.
Qed.

(** X11. A completion that comes back without choices counts as a failure
    of that model, like an exception of the call: the index error is
    printed and the next model is tried, and its reply is returned. *)
Theorem empty_choices_falls_through d p msgs m1 m2 rest w1 reply cs w2 :
  valid p d = true ->
  assembled p d = inr msgs ->
  MODELS p = m1 :: m2 :: rest ->
  create (request_for msgs m1) (remote p) = (inr {| choices := [] |}, w1) ->
  create (request_for msgs m2) w1
  = (inr {| choices := {| message := {| content := Some reply |} |} :: cs |}, w2) ->
  chat create (JObj d) p
  = (inr (JObj [("response", JStr reply); ("status", JStr "success");
                ("model", JStr m2)], 200),
     emit ["Error with model " +:+ m1 +:+ ": list index out of range"]
          [request_for msgs m1; request_for msgs m2] w2 p).
Proof.
  intros Hv Ha HM H1 H2.
  rewrite (chat_valid_loop _ _ _ Hv Ha), HM.
  change (m1 :: m2 :: rest) with ([m1] ++ m2 :: rest).
  rewrite (try_models_first_success msgs [m1] m2 rest None p
             [IndexError "list index out of range"] w1 (JStr reply) w2).
  - reflexivity.
  - simpl. unfold attempt. by rewrite H1.
  - unfold attempt. by rewrite H2.
Qed.

(** C3, at the failing input.  The tutor [["physics"]] is a list, so it is
    no key of the prompt table, and the request should be answered with
    InvalidTutor.  It is not: the membership test of the first check hashes
    the list and raises [TypeError], outside the [try], so the exception
    leaves the handler for every state of the process and of the service.
    Nothing is printed and no call is made. *)
Theorem list_tutor_not_rejected p :
  (forall t, tutor_of list_tutor <> JStr t)
  /\ chat create (JObj list_tutor) p
     = (inl (TypeError "unhashable type: 'list'"), p)
  /\ fst (chat create (JObj list_tutor) p)
     <> inr (JObj [("response", JStr "Invalid tutor selected");
                   ("status", JStr "error")], 400).
Proof.
  assert (chat create (JObj list_tutor) p
          = (inl (TypeError "unhashable type: 'list'"), p)) as H by reflexivity.
  split; [intros t; discriminate|]. split; [exact H|].
  rewrite H. discriminate.
Qed.

End Properties.

(** ** The handler on concrete requests *)

(** The first model is rate limited, the second answers. *)
Lemma first_success_wins_witness :
  let p := boot [rate_limited; said "Resistance to a change of motion."] in
  valid p inertia = true
  /\ assembled p inertia = inr inertia_messages
  /\ (let (r, p') := chat scripted (JObj inertia) p in
      r = inr (JObj [("response", JStr "Resistance to a change of motion.");
                     ("status", JStr "success");
                     ("model", JStr "anthropic/claude-3-sonnet")], 200)
      /\ issued p' = issued p
                     ++ map (request_for inertia_messages)
                          (["anthropic/claude-3-haiku"] ++ ["anthropic/claude-3-sonnet"])
      /\ remote p' = []).
Proof.
  intros p.
  assert (valid p inertia = true) as H1 by (vm_compute; reflexivity).
  assert (assembled p inertia = inr inertia_messages) as H2 by (vm_compute; reflexivity).
  split; [exact H1|]. split; [exact H2|].
  apply (first_success_wins scripted inertia p inertia_messages
           ["anthropic/claude-3-haiku"] "anthropic/claude-3-sonnet"
           ["openai/gpt-3.5-turbo"; "google/gemini-pro"]
           [ClientError "RateLimitError" "Error code: 429"]
           [said "Resistance to a change of motion."]
           (JStr "Resistance to a change of motion.") [] H1 H2);
    vm_compute; reflexivity.
Defined.

Lemma messages_sent_witness :
  let p := boot [said "Mass times velocity."] in
  let hs := [JObj [("role", JStr "user"); ("content", JStr "What is inertia?")];
             JObj [("content", JStr "Resistance to a change of motion.");
                   ("role", JStr "assistant"); ("id", JNum 7)]] in
  valid p with_history = true
  /\ forallb well_formed hs = true
  /\ (exists rq rqs,
        issued (snd (chat scripted (JObj with_history) p)) = issued p ++ rq :: rqs
        /\ Forall (fun rq' => messages rq'
                     = JObj [("role", JStr "system"); ("content", JStr newton_prompt)]
                       :: map verbatim hs
                       ++ [JObj [("role", JStr "user");
                                 ("content", message_of with_history)]])
                  (rq :: rqs)).
Proof.
  intros p hs.
  assert (valid p with_history = true) as H1 by (vm_compute; reflexivity).
  assert (forallb well_formed hs = true) as H2 by (vm_compute; reflexivity).
  assert (tutor_of with_history = JStr "physics") as H3 by reflexivity.
  assert (TUTOR_PROMPTS p !! "physics" = Some newton_prompt) as H4
    by (vm_compute; reflexivity).
  assert (history_of with_history = JArr hs) as H5 by reflexivity.
  assert (MODELS p <> []) as H6 by (vm_compute; discriminate).
  split; [exact H1|]. split; [exact H2|].
  exact (proj1 (messages_sent scripted with_history p "physics" newton_prompt hs
                  H1 H3 H4 H5 H2 H6)).
Defined.

Lemma validation_first_witness :
  let p := boot (@nil (result ChatCompletion)) in
  chat scripted (JObj art) p
  = (inr (JObj [("response", JStr "Invalid tutor selected");
                ("status", JStr "error")], 400), p)
  /\ chat scripted (JObj no_message) p
     = (inr (JObj [("response", JStr "Message cannot be empty");
                   ("status", JStr "error")], 400), p).
Proof.
  intros p. split.
  - apply (proj1 (validation_first scripted art p)).
    right. split; vm_compute; reflexivity.
  - apply (proj2 (validation_first scripted no_message p));
      vm_compute; reflexivity.
Defined.

Lemma all_models_failed_witness :
  let p := boot [rate_limited; rate_limited; timed_out;
                 inr {| choices := [] |}] in
  valid p inertia = true
  /\ chat scripted (JObj inertia) p
     = (inr (JObj [("response",
                    JStr "Sorry, I'm having trouble connecting to the tutor service. Please try again later.");
                   ("status", JStr "error");
                   ("error", JStr "list index out of range")], 500),
        emit ["Error with model anthropic/claude-3-haiku: Error code: 429";
              "Error with model anthropic/claude-3-sonnet: Error code: 429";
              "Error with model openai/gpt-3.5-turbo: ";
              "Error with model google/gemini-pro: list index out of range";
              "Final error: list index out of range"]
             (map (request_for inertia_messages) MODELS_init) [] p).
Proof.
  intros p.
  assert (valid p inertia = true) as H1 by (vm_compute; reflexivity).
  split; [exact H1|].
  apply (all_models_failed scripted inertia p inertia_messages
           [ClientError "RateLimitError" "Error code: 429";
            ClientError "RateLimitError" "Error code: 429";
            ClientError "TimeoutError" EmptyString;
            IndexError "list index out of range"]
           [] (IndexError "list index out of range") H1);
    vm_compute; reflexivity.
Defined.

Lemma error_text_fixed_witness :
  let p := boot [rate_limited; said "partial"; timed_out] in
  let body := JObj [("response", JStr "Invalid tutor selected");
                    ("status", JStr "error")] in
  chat scripted (JObj art) p = (inr (body, 400), p)
  /\ subscript body "status" = inr (JStr "error")
  /\ (subscript body "response" = inr (JStr "Invalid tutor selected")
      \/ subscript body "response" = inr (JStr "Message cannot be empty")
      \/ subscript body "response"
         = inr (JStr "Sorry, I'm having trouble connecting to the tutor service. Please try again later.")).
Proof.
  intros p body.
  assert (chat scripted (JObj art) p = (inr (body, 400), p)) as H1
    by (vm_compute; reflexivity).
  assert (subscript body "status" = inr (JStr "error")) as H2 by reflexivity.
  split; [exact H1|]. split; [exact H2|].
  exact (error_text_fixed scripted (JObj art) p body 400 p H1 H2).
Defined.

(** C6 as stated fails: the last model raises an exception whose text is
    empty, and the error field of the response is the empty string. *)
Lemma diagnostic_can_be_empty :
  let p := boot all_time_out in
  failures scripted inertia_messages (MODELS p) (remote p)
  = Some ([ClientError "RateLimitError" "Error code: 429";
           ClientError "RateLimitError" "Error code: 429";
           ClientError "RateLimitError" "Error code: 429";
           ClientError "TimeoutError" EmptyString], [])
  /\ fst (chat scripted (JObj inertia) p)
     = inr (JObj [("response",
                   JStr "Sorry, I'm having trouble connecting to the tutor service. Please try again later.");
                  ("status", JStr "error");
                  ("error", JStr EmptyString)], 500).
Proof. split; vm_compute; reflexivity. Qed.

Lemma diagnostic_is_last_text_witness :
  let p := boot [timed_out; timed_out; timed_out; rate_limited] in
  valid p inertia = true
  /\ exists body,
       fst (chat scripted (JObj inertia) p) = inr (body, 500)
       /\ subscript body "error" = inr (JStr "Error code: 429")
       /\ (subscript body "error" = inr (JStr EmptyString)
           <-> "Error code: 429" = EmptyString).
Proof.
  intros p.
  assert (valid p inertia = true) as H1 by (vm_compute; reflexivity).
  split; [exact H1|].
  apply (diagnostic_is_last_text scripted inertia p inertia_messages
           [ClientError "TimeoutError" EmptyString;
            ClientError "TimeoutError" EmptyString;
            ClientError "TimeoutError" EmptyString;
            ClientError "RateLimitError" "Error code: 429"]
           [] (ClientError "RateLimitError" "Error code: 429") H1);
    vm_compute; reflexivity.
Defined.


Lemma malformed_history_is_service_error_witness :
  let p := boot [said "2 H2 + O2 -> 2 H2O"] in
  let hs := [JObj [("role", JStr "user"); ("content", JStr "Hello")];
             JObj [("role", JStr "assistant")]] in
  valid p broken_history = true
  /\ forallb well_formed hs = false
  /\ exists e,
       fst (chat scripted (JObj broken_history) p)
       = inr (JObj [("response",
                     JStr "Sorry, I'm having trouble connecting to the tutor service. Please try again later.");
                    ("status", JStr "error");
                    ("error", JStr (str e))], 500)
       /\ issued (snd (chat scripted (JObj broken_history) p)) = issued p
       /\ remote (snd (chat scripted (JObj broken_history) p)) = remote p.
Proof.
  intros p hs.
  assert (valid p broken_history = true) as H1 by (vm_compute; reflexivity).
  assert (history_of broken_history = JArr hs) as H2 by reflexivity.
  assert (forallb well_formed hs = false) as H3 by reflexivity.
  split; [exact H1|]. split; [exact H3|].
  exact (malformed_history_is_service_error scripted broken_history p hs H1 H2 H3).
Defined.

(** The diagnostic of the request above is the missing key. *)
Example broken_history_diagnostic :
  fst (chat scripted (JObj broken_history) (boot [said "2 H2 + O2 -> 2 H2O"]))
  = inr (JObj [("response", JStr apology); ("status", JStr "error");
               ("error", JStr "'content'")], 500).
Proof. vm_compute. reflexivity. Qed.

(** A non-empty list as tutor is not rejected as invalid: it cannot be
    hashed, and the membership test raises before the [try]. *)
Example list_tutor_raises :
  fst (chat scripted (JObj [("tutor", JArr [JStr "physics"]); ("message", JStr "Hi")])
         (boot []))
  = inl (TypeError "unhashable type: 'list'").
Proof. vm_compute. reflexivity. Qed.

(** ** Further requests *)

Lemma response_shape_witness :
  let p := boot [rate_limited; said "Resistance to a change of motion."] in
  let body := JObj [("response", JStr "Resistance to a change of motion.");
                    ("status", JStr "success");
                    ("model", JStr "anthropic/claude-3-sonnet")] in
  fst (chat scripted (JObj inertia) p) = inr (body, 200)
  /\ ((200 = 200
       /\ subscript body "status" = inr (JStr "success")
       /\ (exists m, subscript body "model" = inr (JStr m) /\ In m (MODELS p))
       /\ subscript body "error" = inl (KeyError (JStr "error")))
      \/ (200 = 400
          /\ subscript body "status" = inr (JStr "error")
          /\ subscript body "model" = inl (KeyError (JStr "model"))
          /\ subscript body "error" = inl (KeyError (JStr "error")))
      \/ (200 = 500
          /\ subscript body "status" = inr (JStr "error")
          /\ subscript body "model" = inl (KeyError (JStr "model"))
          /\ exists text, subscript body "error" = inr (JStr text))).
Proof.
  intros p body.
  assert (chat scripted (JObj inertia) p
          = (inr (body, 200), snd (chat scripted (JObj inertia) p))) as H1
    by (vm_compute; reflexivity).
  split; [by rewrite H1|].
  exact (response_shape scripted (JObj inertia) p body 200 _ H1).
Defined.

Lemma success_means_first_answer_witness :
  let p := boot [rate_limited; said "Resistance to a change of motion."] in
  let body := JObj [("response", JStr "Resistance to a change of motion.");
                    ("status", JStr "success");
                    ("model", JStr "anthropic/claude-3-sonnet")] in
  fst (chat scripted (JObj inertia) p) = inr (body, 200)
  /\ exists msgs pre model post es w1 reply w2,
       assembled p inertia = inr msgs
       /\ MODELS p = pre ++ model :: post
       /\ failures scripted msgs pre (remote p) = Some (es, w1)
       /\ attempt scripted msgs model w1 = (inr reply, w2)
       /\ body = JObj [("response", reply); ("status", JStr "success");
                       ("model", JStr model)]
       /\ stdout (snd (chat scripted (JObj inertia) p))
          = stdout p ++ error_lines pre es
       /\ issued (snd (chat scripted (JObj inertia) p))
          = issued p ++ map (request_for msgs) (pre ++ [model])
       /\ remote (snd (chat scripted (JObj inertia) p)) = w2.
Proof.
  intros p body.
  assert (chat scripted (JObj inertia) p
          = (inr (body, 200), snd (chat scripted (JObj inertia) p))) as H1
    by (vm_compute; reflexivity).
  split; [by rewrite H1|].
  exact (success_means_first_answer scripted inertia p body _ H1).
Defined.

Lemma no_model_to_try_witness :
  let p := unconfigured [said "never asked"] in
  valid p inertia = true
  /\ chat scripted (JObj inertia) p
     = (inr (JObj [("response",
                    JStr "Sorry, I'm having trouble connecting to the tutor service. Please try again later.");
                   ("status", JStr "error");
                   ("error", JStr "All models failed")], 500),
        emit ["Final error: All models failed"] [] (remote p) p).
Proof.
  intros p.
  assert (valid p inertia = true) as H1 by (vm_compute; reflexivity).
  assert (assembled p inertia = inr inertia_messages) as H2 by (vm_compute; reflexivity).
  split; [exact H1|].
  exact (no_model_to_try scripted inertia p inertia_messages H1 H2 eq_refl).
Defined.

Lemma same_fields_same_outcome_witness :
  let p := boot [rate_limited; said "Resistance to a change of motion."] in
  iterate (history_of inertia) = iterate (history_of empty_dict_history)
  /\ chat scripted (JObj inertia) p = chat scripted (JObj empty_dict_history) p.
Proof.
  intros p.
  assert (iterate (history_of inertia) = iterate (history_of empty_dict_history))
    as H1 by reflexivity.
  split; [exact H1|].
  exact (same_fields_same_outcome scripted inertia empty_dict_history p
           eq_refl eq_refl H1).
Defined.

Lemma history_not_iterable_witness :
  let p := boot [said "never asked"] in
  valid p null_history = true
  /\ fst (chat scripted (JObj null_history) p)
     = inr (JObj [("response",
                   JStr "Sorry, I'm having trouble connecting to the tutor service. Please try again later.");
                  ("status", JStr "error");
                  ("error", JStr "'NoneType' object is not iterable")], 500)
  /\ issued (snd (chat scripted (JObj null_history) p)) = [].
Proof.
  intros p.
  assert (valid p null_history = true) as H1 by (vm_compute; reflexivity).
  split; [exact H1|].
  rewrite (history_not_iterable scripted null_history p H1 eq_refl).
  split; reflexivity.
Defined.

Lemma first_missing_key_reported_witness :
  let p := boot [said "never asked"] in
  valid p missing_role = true
  /\ missing_key [("content", JStr "Hi")] = Some "role"
  /\ fst (chat scripted (JObj missing_role) p)
     = inr (JObj [("response",
                   JStr "Sorry, I'm having trouble connecting to the tutor service. Please try again later.");
                  ("status", JStr "error");
                  ("error", JStr "'role'")], 500)
  /\ issued (snd (chat scripted (JObj missing_role) p)) = [].
Proof.
  intros p.
  assert (valid p missing_role = true) as H1 by (vm_compute; reflexivity).
  split; [exact H1|]. split; [reflexivity|].
  rewrite (first_missing_key_reported scripted missing_role p
             [JObj [("role", JStr "user"); ("content", JStr "Hello")]]
             [("content", JStr "Hi")]
             [JObj [("role", JStr "user")]; JNum 3]
             "role" H1 eq_refl eq_refl eq_refl).
  split; reflexivity.
Defined.

Lemma registered_tutors_witness :
  let p := boot [said "never asked"] in
  TUTOR_PROMPTS p = TUTOR_PROMPTS_init
  /\ fst (chat scripted (JObj capitalised) p)
     = inr (JObj [("response", JStr "Invalid tutor selected");
                  ("status", JStr "error")], 400).
Proof.
  intros p. split; [reflexivity|].
  apply (proj2 (registered_tutors scripted capitalised p "Physics" eq_refl eq_refl)).
  intros [H|[H|[H|[H|[]]]]]; discriminate H.
Defined.

Lemma null_reply_is_success_witness :
  let p := boot [no_content] in
  valid p inertia = true
  /\ chat scripted (JObj inertia) p
     = (inr (JObj [("response", JNull); ("status", JStr "success");
                   ("model", JStr "anthropic/claude-3-haiku")], 200),
        emit [] [request_for inertia_messages "anthropic/claude-3-haiku"] [] p).
Proof.
  intros p.
  assert (valid p inertia = true) as H1 by (vm_compute; reflexivity).
  assert (assembled p inertia = inr inertia_messages) as H2 by (vm_compute; reflexivity).
  split; [exact H1|].
  exact (null_reply_is_success scripted inertia p inertia_messages
           "anthropic/claude-3-haiku" _ _ [] H1 H2 eq_refl eq_refl).
Defined.

Lemma empty_choices_falls_through_witness :
  let p := boot [no_choices; said "Resistance to a change of motion."] in
  valid p inertia = true
  /\ chat scripted (JObj inertia) p
     = (inr (JObj [("response", JStr "Resistance to a change of motion.");
                   ("status", JStr "success");
                   ("model", JStr "anthropic/claude-3-sonnet")], 200),
        emit ["Error with model anthropic/claude-3-haiku: list index out of range"]
             [request_for inertia_messages "anthropic/claude-3-haiku";
              request_for inertia_messages "anthropic/claude-3-sonnet"] [] p).
Proof.
  intros p.
  assert (valid p inertia = true) as H1 by (vm_compute; reflexivity).
  assert (assembled p inertia = inr inertia_messages) as H2 by (vm_compute; reflexivity).
  split; [exact H1|].
  exact (empty_choices_falls_through scripted inertia p inertia_messages
           "anthropic/claude-3-haiku" "anthropic/claude-3-sonnet" _ _ _ _ []
           H1 H2 eq_refl eq_refl eq_refl).
Defined.
